(** * The Windows runner of EasyGUIFlashTool: [wWinMain]

    A shallow embedding of [windows/runner/main.cpp].  The entry point is a
    straight sequence of calls into the operating system, the Flutter
    embedder and the runner's own window class, with one early [return] and
    one message loop.  Every such call is recorded, in program order, in a
    log of calls; what the callees answer is supplied by a [Platform]
    record.  The properties below are statements about that log and about
    the value [wWinMain] returns. *)

From Stdlib Require Import ZArith.
From stdpp Require Import base decidable option list strings.

Local Open Scope Z_scope.

(** ** Values of the platform headers *)

(** [windows.h]: [ATTACH_PARENT_PROCESS] is [(DWORD)-1]. *)
Definition ATTACH_PARENT_PROCESS : Z := 4294967295.
(** [objbase.h]: [COINIT_APARTMENTTHREADED]. *)
Definition COINIT_APARTMENTTHREADED : Z := 2.
(** [winuser.h]: [SW_HIDE]. *)
Definition SW_HIDE : Z := 0.
(** [stdlib.h]. *)
Definition EXIT_SUCCESS : Z := 0.
Definition EXIT_FAILURE : Z := 1.
(** The null pointer. *)
Definition nullptr : Z := 0.

(** A C scalar (a [BOOL], an [HWND]) used as a condition: true unless zero. *)
Definition truthy (v : Z) : bool := negb (v =? 0).

(** ** Data *)

(** [Win32Window::Point] and [Win32Window::Size]. *)
Record Point := mkPoint { px : Z; py : Z }.
Record Size := mkSize { width : Z; height : Z }.

(** The [MSG] structure filled in by [GetMessage]. *)
Record MSG := mkMSG { message : Z; wParam : Z; lParam : Z }.

(** The two C streams that are reopened. *)
Inductive Stream := stdout | stderr.

(** One entry of the call log: the callee and the arguments it was given.
    The last two entries are the destructors of the locals [window] and
    [project], which C++ runs when [wWinMain] returns. *)
Inductive Event :=
| EvGetCommandLineArguments
| EvAttachConsole (dwProcessId : Z)
| EvFreopen_s (path mode : string) (stream : Stream)
| EvSyncWithStdio
| EvFlutterDesktopResyncOutputStreams
| EvIsDebuggerPresent
| EvCreateAndAttachConsole
| EvCoInitializeEx (reserved coinit : Z)
| EvDartProject (path : string)
| EvSetDartEntrypointArguments (arguments : list string)
| EvFlutterWindow
| EvWindowCreate (title : string) (origin : Point) (size : Size)
| EvWindowGetHandle
| EvShowWindow (hwnd cmd : Z)
| EvWindowSetQuitOnClose (quit_on_close : bool)
| EvGetMessage
| EvTranslateMessage (msg : MSG)
| EvDispatchMessage (msg : MSG)
| EvCoUninitialize
| EvFlutterWindowDtor
| EvDartProjectDtor.

(** What is done to the local vector [command_line_arguments]. *)
Inductive Access := AInit | ARead | AMove.

#[global] Instance Point_eq_dec : EqDecision Point.
Proof. solve_decision. Defined.
#[global] Instance Size_eq_dec : EqDecision Size.
Proof. solve_decision. Defined.
#[global] Instance MSG_eq_dec : EqDecision MSG.
Proof. solve_decision. Defined.
#[global] Instance Stream_eq_dec : EqDecision Stream.
Proof. solve_decision. Defined.
#[global] Instance Event_eq_dec : EqDecision Event.
Proof. solve_decision. Defined.
#[global] Instance Access_eq_dec : EqDecision Access.
Proof. solve_decision. Defined.

(** ** The platform

    Everything [wWinMain] learns from its callees. *)
Record Platform := mkPlatform {
  (** the vector returned by [GetCommandLineArguments()] *)
  argument_list : list string;
  (** the [BOOL] returned by [AttachConsole(ATTACH_PARENT_PROCESS)] *)
  attach_console : Z;
  (** the [BOOL] returned by [IsDebuggerPresent()] *)
  debugger_present : Z;
  (** the [bool] returned by [window.Create(...)] *)
  window_created : bool;
  (** the [HWND] returned by [window.GetHandle()] *)
  window_handle : Z;
  (** the successive answers of [GetMessage]: its return value and the
      message it stored.  When the list is exhausted no further message
      ever arrives and [GetMessage] does not come back. *)
  message_queue : list (Z * MSG);
  (** the contents of a vector after it has been moved from, which the
      language leaves unspecified *)
  moved_from : list string
}.

(** ** Control flow and state *)

(** How a statement ends. *)
Inductive Flow (A : Type) :=
| Next (a : A)      (** control goes on to the next statement *)
| Return (code : Z) (** a [return] statement was executed *)
| Blocked.          (** a call never came back *)
Arguments Next {A} a.
Arguments Return {A} code.
Arguments Blocked {A}.

(** The state of one activation of [wWinMain]. *)
Record Frame := mkFrame {
  (** the local [std::vector<std::string> command_line_arguments] *)
  command_line_arguments : list string;
  (** the local [bool has_cli_args] *)
  has_cli_args : bool;
  (** what has been done to [command_line_arguments] so far *)
  accesses : list Access;
  (** the calls made so far *)
  calls : list Event
}.

Definition M (A : Type) : Type := Frame → Flow A * Frame.

#[global] Instance M_ret : MRet M := λ A a fr, (Next a, fr).
#[global] Instance M_bind : MBind M := λ A B k m fr,
  match m fr with
  | (Next a, fr') => k a fr'
  | (Return c, fr') => (Return c, fr')
  | (Blocked, fr') => (Blocked, fr')
  end.

Definition skip : M unit := mret tt.
Definition return_ (code : Z) : M unit := λ fr, (Return code, fr).
Definition block {A} : M A := λ fr, (Blocked, fr).

(** Record a call. *)
Definition call (e : Event) : M unit := λ fr,
  (Next tt, mkFrame (command_line_arguments fr) (has_cli_args fr) (accesses fr)
              (calls fr ++ [e])).

(** Record a call and hand back the callee's answer. *)
Definition call_with {A} (e : Event) (answer : A) : M A := call e;; mret answer.

Section Runner.
Variable os : Platform.

(** *** The local [command_line_arguments] *)

(** [std::vector<std::string> command_line_arguments = v;] *)
Definition init_command_line_arguments (v : list string) : M unit := λ fr,
  (Next tt, mkFrame v (has_cli_args fr) (accesses fr ++ [AInit]) (calls fr)).

(** [command_line_arguments.empty()] *)
Definition command_line_arguments_empty : M bool := λ fr,
  (Next (bool_decide (command_line_arguments fr = [])),
   mkFrame (command_line_arguments fr) (has_cli_args fr)
     (accesses fr ++ [ARead]) (calls fr)).

(** [std::move(command_line_arguments)] handed to a by-value parameter:
    the callee receives the contents, the local is left moved-from. *)
Definition move_command_line_arguments : M (list string) := λ fr,
  (Next (command_line_arguments fr),
   mkFrame (moved_from os) (has_cli_args fr) (accesses fr ++ [AMove]) (calls fr)).

(** *** The local [has_cli_args] *)

(** [bool has_cli_args = b;] *)
Definition init_has_cli_args (b : bool) : M unit := λ fr,
  (Next tt, mkFrame (command_line_arguments fr) b (accesses fr) (calls fr)).

(** [has_cli_args] read in an expression *)
Definition get_has_cli_args : M bool := λ fr, (Next (has_cli_args fr), fr).

(** *** The callees *)

Definition GetCommandLineArguments : M (list string) :=
  call_with EvGetCommandLineArguments (argument_list os).
Definition AttachConsole (dwProcessId : Z) : M Z :=
  call_with (EvAttachConsole dwProcessId) (attach_console os).
Definition freopen_s (path mode : string) (stream : Stream) : M unit :=
  call (EvFreopen_s path mode stream).
Definition sync_with_stdio : M unit := call EvSyncWithStdio.
Definition FlutterDesktopResyncOutputStreams : M unit :=
  call EvFlutterDesktopResyncOutputStreams.
Definition IsDebuggerPresent : M Z :=
  call_with EvIsDebuggerPresent (debugger_present os).
Definition CreateAndAttachConsole : M unit := call EvCreateAndAttachConsole.
Definition CoInitializeEx (reserved coinit : Z) : M unit :=
  call (EvCoInitializeEx reserved coinit).
Definition DartProject (path : string) : M unit := call (EvDartProject path).
Definition set_dart_entrypoint_arguments (arguments : list string) : M unit :=
  call (EvSetDartEntrypointArguments arguments).
Definition FlutterWindow : M unit := call EvFlutterWindow.
Definition window_Create (title : string) (origin : Point) (size : Size) : M bool :=
  call_with (EvWindowCreate title origin size) (window_created os).
Definition window_GetHandle : M Z :=
  call_with EvWindowGetHandle (window_handle os).
Definition ShowWindow (hwnd cmd : Z) : M unit := call (EvShowWindow hwnd cmd).
Definition window_SetQuitOnClose (quit_on_close : bool) : M unit :=
  call (EvWindowSetQuitOnClose quit_on_close).
Definition TranslateMessage (msg : MSG) : M unit := call (EvTranslateMessage msg).
Definition DispatchMessage (msg : MSG) : M unit := call (EvDispatchMessage msg).
Definition CoUninitialize : M unit := call EvCoUninitialize.

(** [GetMessage(&msg, nullptr, 0, 0)]: the call either comes back with
    its return value, having stored a message, or never comes back. *)
Definition GetMessage (answer : option (Z * MSG)) : M (Z * MSG) :=
  call EvGetMessage;;
  match answer with
  | Some a => mret a
  | None => block
  end.

(** [while (::GetMessage(&msg, nullptr, 0, 0)) { ::TranslateMessage(&msg);
    ::DispatchMessage(&msg); }] *)
Fixpoint message_loop (pending : list (Z * MSG)) : M unit :=
  match pending with
  | [] => GetMessage None;; skip
  | answer :: later =>
      '(r, msg) ← GetMessage (Some answer);
      if truthy r then
        TranslateMessage msg;;
        DispatchMessage msg;;
        message_loop later
      else skip
  end.

(** *** The entry point *)

(** [int APIENTRY wWinMain(HINSTANCE instance, HINSTANCE prev,
    wchar_t *command_line, int show_command)] *)
Definition wWinMain (instance prev : Z) (command_line : list Z)
    (show_command : Z) : M unit :=
  v ← GetCommandLineArguments;
  init_command_line_arguments v;;
  is_empty ← command_line_arguments_empty;
  init_has_cli_args (negb is_empty);;
  attached ← AttachConsole ATTACH_PARENT_PROCESS;
  (if truthy attached then
     freopen_s "CONOUT$" "w" stdout;;
     freopen_s "CONOUT$" "w" stderr;;
     sync_with_stdio;;
     FlutterDesktopResyncOutputStreams
   else
     wanted ← (cli ← get_has_cli_args;
               if cli : bool then mret true
               else d ← IsDebuggerPresent; mret (truthy d));
     if wanted : bool then CreateAndAttachConsole else skip);;
  CoInitializeEx nullptr COINIT_APARTMENTTHREADED;;
  DartProject "data";;
  arguments ← move_command_line_arguments;
  set_dart_entrypoint_arguments arguments;;
  FlutterWindow;;
  let origin := mkPoint 10 10 in
  let size := mkSize 1280 720 in
  created ← window_Create "EasyGUIFlashTool" origin size;
  (if negb created then return_ EXIT_FAILURE else skip);;
  cli ← get_has_cli_args;
  (if cli : bool then
     hwnd ← window_GetHandle;
     if truthy hwnd then ShowWindow hwnd SW_HIDE else skip
   else skip);;
  window_SetQuitOnClose true;;
  message_loop (message_queue os);;
  CoUninitialize;;
  return_ EXIT_SUCCESS.
End Runner.

(** ** Running the entry point *)

(** How the process leaves [wWinMain]. *)
Inductive Outcome :=
| Exit (status : Z)  (** [wWinMain] returned [status] *)
| Stuck.             (** [wWinMain] is still waiting in [GetMessage] *)

#[global] Instance Outcome_eq_dec : EqDecision Outcome.
Proof. solve_decision. Defined.

(** On entry no call has been made and the locals are not yet
    initialised; neither local is read before its declaration. *)
Definition entry_frame : Frame := mkFrame [] false [] [].

(** The destructors of the locals [window] and [project], which are alive
    at both [return] statements, in the order C++ runs them: the reverse of
    the order of construction.  The destructors of the vector and of the
    plain-data locals [origin] and [size] are left out. *)
Definition scope_exit : list Event := [EvFlutterWindowDtor; EvDartProjectDtor].

(** What is observed of one process. *)
Record Run := mkRun {
  outcome : Outcome;
  (** every call made, in order *)
  trace : list Event;
  (** the value of the local [has_cli_args] when the process is left *)
  cli_flag : bool;
  (** every use of the local [command_line_arguments], in order *)
  vector_accesses : list Access
}.

(** One process: [wWinMain] is entered once and its [return] runs the
    destructors of its locals.  Falling off the end of the body cannot
    happen (its last statement is a [return]); it is classed with
    [Stuck]. *)
Definition run (os : Platform) (instance prev : Z) (command_line : list Z)
    (show_command : Z) : Run :=
  match wWinMain os instance prev command_line show_command entry_frame with
  | (Return status, fr) =>
      mkRun (Exit status) (calls fr ++ scope_exit) (has_cli_args fr) (accesses fr)
  | (Next _, fr) => mkRun Stuck (calls fr) (has_cli_args fr) (accesses fr)
  | (Blocked, fr) => mkRun Stuck (calls fr) (has_cli_args fr) (accesses fr)
  end.

(** ** Reading a trace *)

(** The values handed to [set_dart_entrypoint_arguments], in call order. *)
Definition entrypoint_arguments (tr : list Event) : list (list string) :=
  omap (λ e, match e with EvSetDartEntrypointArguments a => Some a | _ => None end) tr.

(** The title, origin and size of every [window.Create], in call order. *)
Definition window_creations (tr : list Event) : list (string * Point * Size) :=
  omap (λ e, match e with EvWindowCreate t o s => Some (t, o, s) | _ => None end) tr.

(** The handle and command of every [ShowWindow], in call order. *)
Definition show_window_calls (tr : list Event) : list (Z * Z) :=
  omap (λ e, match e with EvShowWindow h c => Some (h, c) | _ => None end) tr.

(** The calls that put the process streams on a console it attached to. *)
Definition redirect_calls : list Event :=
  [EvFreopen_s "CONOUT$" "w" stdout; EvFreopen_s "CONOUT$" "w" stderr;
   EvSyncWithStdio; EvFlutterDesktopResyncOutputStreams].

(** A call that gives the process a console or touches its streams. *)
Definition is_console_call (e : Event) : bool :=
  match e with
  | EvFreopen_s _ _ _ | EvSyncWithStdio | EvFlutterDesktopResyncOutputStreams
  | EvCreateAndAttachConsole => true
  | _ => false
  end.

(** [GetMessage] answers zero at some point: a quit message is retrieved. *)
Fixpoint quits (pending : list (Z * MSG)) : bool :=
  match pending with
  | [] => false
  | (r, _) :: later => if truthy r then quits later else true
  end.

(** The calls of the message loop. *)
Fixpoint loop_calls (pending : list (Z * MSG)) : list Event :=
  match pending with
  | [] => [EvGetMessage]
  | (r, msg) :: later =>
      EvGetMessage ::
      (if truthy r
       then EvTranslateMessage msg :: EvDispatchMessage msg :: loop_calls later
       else [])
  end.

(** The calls of the console decision, after [AttachConsole]. *)
Definition console_calls (os : Platform) : list Event :=
  if truthy (attach_console os) then redirect_calls
  else if bool_decide (argument_list os = [])
       then EvIsDebuggerPresent ::
            (if truthy (debugger_present os) then [EvCreateAndAttachConsole] else [])
       else [EvCreateAndAttachConsole].

(** The calls up to and including [window.Create]. *)
Definition startup_calls (os : Platform) : list Event :=
  [EvGetCommandLineArguments; EvAttachConsole ATTACH_PARENT_PROCESS]
  ++ console_calls os
  ++ [EvCoInitializeEx nullptr COINIT_APARTMENTTHREADED; EvDartProject "data";
      EvSetDartEntrypointArguments (argument_list os); EvFlutterWindow;
      EvWindowCreate "EasyGUIFlashTool" (mkPoint 10 10) (mkSize 1280 720)].

(** The calls of the hide step. *)
Definition hide_calls (os : Platform) : list Event :=
  if bool_decide (argument_list os = []) then []
  else EvWindowGetHandle ::
       (if truthy (window_handle os)
        then [EvShowWindow (window_handle os) SW_HIDE] else []).

(** The calls after a successful [window.Create]. *)
Definition windowed_calls (os : Platform) : list Event :=
  hide_calls os ++ [EvWindowSetQuitOnClose true] ++ loop_calls (message_queue os)
  ++ (if quits (message_queue os) then EvCoUninitialize :: scope_exit else []).

(** A call made from inside the message loop. *)
Definition is_loop_call (e : Event) : bool :=
  match e with
  | EvGetMessage | EvTranslateMessage _ | EvDispatchMessage _ => true
  | _ => false
  end.

(** The same platform with other contents in the moved-from vector. *)
Definition with_moved_from (junk : list string) (os : Platform) : Platform :=
  mkPlatform (argument_list os) (attach_console os) (debugger_present os)
    (window_created os) (window_handle os) (message_queue os) junk.

(** The same platform with another answer from [window.GetHandle()]. *)
Definition with_window_handle (hwnd : Z) (os : Platform) : Platform :=
  mkPlatform (argument_list os) (attach_console os) (debugger_present os)
    (window_created os) hwnd (message_queue os) (moved_from os).

(** The same platform with other answers from [GetMessage]. *)
Definition with_message_queue (pending : list (Z * MSG)) (os : Platform) : Platform :=
  mkPlatform (argument_list os) (attach_console os) (debugger_present os)
    (window_created os) (window_handle os) pending (moved_from os).

(** The same platform with another vector from [GetCommandLineArguments()]. *)
Definition with_argument_list (arguments : list string) (os : Platform) : Platform :=
  mkPlatform arguments (attach_console os) (debugger_present os)
    (window_created os) (window_handle os) (message_queue os) (moved_from os).

(** The messages stored by the answers that [GetMessage] gives before its
    first zero answer. *)
Fixpoint before_quit (pending : list (Z * MSG)) : list MSG :=
  match pending with
  | [] => []
  | (r, msg) :: later => if truthy r then msg :: before_quit later else []
  end.

(** One round of the message loop for a retrieved message. *)
Definition pump_round (msg : MSG) : list Event :=
  [EvGetMessage; EvTranslateMessage msg; EvDispatchMessage msg].

(** A call that initialises or tears down COM. *)
Definition is_com_call (e : Event) : bool :=
  match e with
  | EvCoInitializeEx _ _ | EvCoUninitialize => true
  | _ => false
  end.

(** A destructor of a local. *)
Definition is_destructor (e : Event) : bool :=
  match e with
  | EvFlutterWindowDtor | EvDartProjectDtor => true
  | _ => false
  end.

(** A call that belongs to the console decision or to the hide step, or
    that carries the arguments: the calls in which two runs may differ when
    only their argument lists differ. *)
Definition is_mode_call (e : Event) : bool :=
  match e with
  | EvIsDebuggerPresent | EvWindowGetHandle | EvShowWindow _ _
  | EvSetDartEntrypointArguments _ => true
  | _ => is_console_call e
  end.

(** A call of the console decision: the attach, the debugger query and the
    calls that give the process a console. *)
Definition is_decision_call (e : Event) : bool :=
  match e with
  | EvGetCommandLineArguments | EvAttachConsole _ | EvIsDebuggerPresent => true
  | _ => is_console_call e
  end.

(** A call that two runs share when only their argument lists differ. *)
Definition is_common_call (e : Event) : bool := negb (is_mode_call e).

(** ** Sample platforms *)

(** [WM_PAINT] and [WM_QUIT]. *)
Definition paint : MSG := mkMSG 15 0 0.
Definition quit : MSG := mkMSG 18 0 0.

(** Started by double-click: no arguments, no parent console, no debugger;
    the window is painted once and then closed. *)
Definition double_click : Platform :=
  mkPlatform [] 0 0 true 197124 [(1, paint); (0, quit)] [].

(** Started from a terminal with [--flash device1]. *)
Definition from_terminal : Platform :=
  mkPlatform ["--flash"; "device1"] 1 0 true 197124 [(1, paint); (0, quit)] [].

(** Started with [--flash] and no parent console. *)
Definition standalone_cli : Platform :=
  mkPlatform ["--flash"] 0 0 true 197124 [(1, paint); (0, quit)] [].

(** Started by double-click; [window.Create] fails. *)
Definition create_fails : Platform :=
  mkPlatform [] 0 0 false 0 [(0, quit)] [].

(** Started with [--flash] and no parent console; [window.Create] succeeds
    and [window.GetHandle()] answers the null handle. *)
Definition null_handle : Platform :=
  mkPlatform ["--flash"] 0 0 true 0 [(1, paint); (0, quit)] [].

(** ** The run in closed form *)

(** Unfold the monad and the callees down to frames. *)
Ltac run_calls :=
  unfold GetMessage, TranslateMessage, DispatchMessage, GetCommandLineArguments,
    AttachConsole, freopen_s, sync_with_stdio, FlutterDesktopResyncOutputStreams,
    IsDebuggerPresent, CreateAndAttachConsole, CoInitializeEx, DartProject,
    set_dart_entrypoint_arguments, FlutterWindow, window_Create, window_GetHandle,
    ShowWindow, window_SetQuitOnClose, CoUninitialize,
    init_command_line_arguments, command_line_arguments_empty,
    move_command_line_arguments, init_has_cli_args, get_has_cli_args,
    call_with, call, skip, return_, block, mbind, M_bind, mret, M_ret;
  simpl.

Lemma message_loop_run pending fr :
  message_loop pending fr =
  ((if quits pending then Next tt else Blocked),
   mkFrame (command_line_arguments fr) (has_cli_args fr) (accesses fr)
     (calls fr ++ loop_calls pending)).
Proof.
  revert fr. induction pending as [|[r msg] later IH]; intros fr.
  - reflexivity.
  - simpl. run_calls. destruct (truthy r); simpl.
    + rewrite IH. simpl. by rewrite <- !app_assoc.
    + reflexivity.
Qed.

Lemma run_closed_form os instance prev command_line show_command :
  run os instance prev command_line show_command =
  mkRun
    (if window_created os
     then if quits (message_queue os) then Exit EXIT_SUCCESS else Stuck
     else Exit EXIT_FAILURE)
    (startup_calls os ++ if window_created os then windowed_calls os else scope_exit)
    (negb (bool_decide (argument_list os = [])))
    [AInit; ARead; AMove].
Proof.
  destruct os as [args att dbg created hwnd queue junk].
  unfold run, wWinMain, startup_calls, windowed_calls, console_calls, hide_calls.
  run_calls.
  destruct (truthy att), (bool_decide (args = [])), (truthy dbg), created,
    (truthy hwnd); simpl; rewrite ?message_loop_run; simpl;
    destruct (quits queue); simpl;
    rewrite <- ?app_assoc, ?app_nil_r; reflexivity.
Qed.

(** ** The message loop *)

Lemma loop_calls_are_loop_calls pending e :
  e ∈ loop_calls pending → is_loop_call e = true.
Proof.
  induction pending as [|[r msg] later IH]; simpl.
  - intros ->%list_elem_of_singleton. reflexivity.
  - destruct (truthy r); intros He;
      repeat (apply elem_of_cons in He as [->|He]; [reflexivity|]).
    + by apply IH.
    + by apply elem_of_nil in He.
Qed.

Lemma loop_calls_start pending : ∃ rest, loop_calls pending = EvGetMessage :: rest.
Proof. destruct pending as [|[r msg] later]; simpl; eauto. Qed.

Lemma omap_loop_calls {A} (f : Event → option A) pending :
  (∀ e, is_loop_call e = true → f e = None) → omap f (loop_calls pending) = [].
Proof.
  intros Hf. induction pending as [|[r msg] later IH]; simpl.
  - by rewrite (Hf EvGetMessage).
  - rewrite (Hf EvGetMessage) by done. destruct (truthy r); simpl; [|done].
    by rewrite (Hf (EvTranslateMessage msg)), (Hf (EvDispatchMessage msg)).
Qed.

Lemma filter_console_loop_calls pending :
  filter is_console_call (loop_calls pending) = [].
Proof.
  apply elem_of_nil_inv. intros e [Hc He%loop_calls_are_loop_calls]%list_elem_of_filter.
  by destruct e.
Qed.

Lemma quits_iff pending : quits pending = true ↔ ∃ msg, (0, msg) ∈ pending.
Proof.
  induction pending as [|[r msg] later IH]; simpl.
  - split; [done|]. intros [? []%elem_of_nil].
  - unfold truthy. destruct (Z.eqb_spec r 0) as [->|Hr]; simpl.
    + split; [|done]. intros _. exists msg. left.
    + rewrite IH. split; intros [m Hm]; exists m.
      * by right.
      * apply elem_of_cons in Hm as [[=]|]; [lia|done].
Qed.

Lemma truthy_true v : truthy v = true ↔ v ≠ 0.
Proof. unfold truthy. destruct (Z.eqb_spec v 0); naive_solver. Qed.

Lemma truthy_false v : truthy v = false ↔ v = 0.
Proof. unfold truthy. destruct (Z.eqb_spec v 0); naive_solver. Qed.

(** ** The console decision *)

Lemma filter_console_startup os :
  filter is_console_call (startup_calls os) =
  if truthy (attach_console os) then redirect_calls
  else if negb (bool_decide (argument_list os = [])) || truthy (debugger_present os)
       then [EvCreateAndAttachConsole] else [].
Proof.
  unfold startup_calls, console_calls.
  destruct (truthy (attach_console os)), (bool_decide (argument_list os = [])),
    (truthy (debugger_present os)); reflexivity.
Qed.

Lemma filter_console_windowed os :
  filter is_console_call (windowed_calls os) = [].
Proof.
  unfold windowed_calls, hide_calls. rewrite !filter_app, filter_console_loop_calls.
  destruct (bool_decide (argument_list os = [])), (truthy (window_handle os)),
    (quits (message_queue os)); reflexivity.
Qed.

(** C1. The console decision is three-way and exclusive.  Every process
    calls [AttachConsole(ATTACH_PARENT_PROCESS)] first.  The calls that give
    it a console are then: when the attach succeeded, exactly the two
    [freopen_s] of [stdout] and [stderr], [sync_with_stdio] and
    [FlutterDesktopResyncOutputStreams], and no [CreateAndAttachConsole];
    when the attach failed and [has_cli_args] holds or a debugger is
    present, exactly one [CreateAndAttachConsole]; otherwise none at all. *)
Theorem console_decision_three_way os instance prev command_line show_command :
  let r := run os instance prev command_line show_command in
  (∃ rest, trace r =
     EvGetCommandLineArguments :: EvAttachConsole ATTACH_PARENT_PROCESS :: rest)
  ∧ filter is_console_call (trace r) =
    if truthy (attach_console os) then redirect_calls
    else if cli_flag r || truthy (debugger_present os)
         then [EvCreateAndAttachConsole] else [].
Proof.
  cbv zeta. rewrite run_closed_form. cbn [trace cli_flag]. split.
  { unfold startup_calls. simpl. eauto. }
  rewrite filter_app, filter_console_startup.
  destruct (window_created os).
  - by rewrite filter_console_windowed, app_nil_r.
  - by rewrite app_nil_r.
Qed.

(** ** Reading the closed form *)

(** Refute membership in a list that is written out. *)
Ltac absent :=
  let H := fresh "H" in
  intros H;
  repeat (apply elem_of_cons in H as [H|H]; [discriminate H|]);
  by apply elem_of_nil in H.

(** Evaluate a reader of the trace on the closed form, case by case. *)
Ltac read_calls os :=
  destruct (window_created os);
  rewrite !omap_app, ?omap_loop_calls by (by intros []);
  destruct (truthy (attach_console os)), (bool_decide (argument_list os = [])),
    (truthy (debugger_present os)), (truthy (window_handle os)),
    (quits (message_queue os)); reflexivity.

Lemma show_window_calls_run os instance prev command_line show_command :
  show_window_calls (trace (run os instance prev command_line show_command)) =
  if window_created os && negb (bool_decide (argument_list os = []))
     && truthy (window_handle os)
  then [(window_handle os, SW_HIDE)] else [].
Proof.
  rewrite run_closed_form. cbn [trace].
  unfold show_window_calls, startup_calls, windowed_calls, console_calls, hide_calls.
  read_calls os.
Qed.

Lemma startup_calls_end os :
  ∃ pre, startup_calls os =
    pre ++ [EvWindowCreate "EasyGUIFlashTool" (mkPoint 10 10) (mkSize 1280 720)]
    ∧ EvCoInitializeEx nullptr COINIT_APARTMENTTHREADED ∈ pre.
Proof.
  unfold startup_calls.
  exists ([EvGetCommandLineArguments; EvAttachConsole ATTACH_PARENT_PROCESS]
    ++ console_calls os
    ++ [EvCoInitializeEx nullptr COINIT_APARTMENTTHREADED; EvDartProject "data";
        EvSetDartEntrypointArguments (argument_list os); EvFlutterWindow]).
  split.
  - by rewrite <- !app_assoc.
  - rewrite !elem_of_app. right. right. left.
Qed.

Lemma startup_calls_absent os e :
  e ∈ startup_calls os →
  e ≠ EvGetMessage ∧ e ≠ EvCoUninitialize ∧ e ≠ EvFlutterWindowDtor
  ∧ e ≠ EvWindowGetHandle.
Proof.
  unfold startup_calls, console_calls, redirect_calls. intros He.
  repeat split; intros ->; revert He;
    destruct (truthy (attach_console os)), (bool_decide (argument_list os = [])),
      (truthy (debugger_present os)); simpl; absent.
Qed.

(** ** The arguments and the window *)

(** C5. [set_dart_entrypoint_arguments] is called exactly once, and it is
    handed the vector that [GetCommandLineArguments()] returned: the same
    strings in the same order, whatever they are. *)
Theorem arguments_forwarded_verbatim os instance prev command_line show_command :
  entrypoint_arguments (trace (run os instance prev command_line show_command))
  = [argument_list os].
Proof.
  rewrite run_closed_form. cbn [trace].
  unfold entrypoint_arguments, startup_calls, windowed_calls, console_calls, hide_calls.
  read_calls os.
Qed.

(** C8. [window.Create] is called exactly once, with the title
    ["EasyGUIFlashTool"], the origin (10, 10) and the size 1280 x 720,
    whatever the arguments and whatever the platform answers. *)
Theorem window_geometry_fixed os instance prev command_line show_command :
  window_creations (trace (run os instance prev command_line show_command))
  = [("EasyGUIFlashTool", mkPoint 10 10, mkSize 1280 720)].
Proof.
  rewrite run_closed_form. cbn [trace].
  unfold window_creations, startup_calls, windowed_calls, console_calls, hide_calls.
  read_calls os.
Qed.

(** ** Failure of the window and the exit status *)

(** C2. When [window.Create] fails, [wWinMain] returns [EXIT_FAILURE],
    which is not zero, straight after that call: only the destructors of
    its locals follow.  [GetMessage] is never called, [ShowWindow] is never
    called and [CoUninitialize] is never called. *)
Theorem window_failure_exits_at_once os instance prev command_line show_command :
  window_created os = false →
  let r := run os instance prev command_line show_command in
  outcome r = Exit EXIT_FAILURE
  ∧ EXIT_FAILURE ≠ 0
  ∧ (∃ pre, trace r =
       pre ++ EvWindowCreate "EasyGUIFlashTool" (mkPoint 10 10) (mkSize 1280 720)
           :: scope_exit)
  ∧ (EvGetMessage ∉ trace r)
  ∧ show_window_calls (trace r) = []
  ∧ (EvCoUninitialize ∉ trace r).
Proof.
  intros Hfail. cbv zeta. rewrite show_window_calls_run, run_closed_form, Hfail.
  cbn [outcome trace andb].
  assert (∀ e, e ∈ startup_calls os ++ scope_exit →
               e ≠ EvGetMessage ∧ e ≠ EvCoUninitialize) as Habsent.
  { intros e [He|He]%elem_of_app.
    - apply startup_calls_absent in He. tauto.
    - split; intros ->; revert He; unfold scope_exit; absent. }
  split_and!; [done|done| |by intros []%Habsent|done|by intros []%Habsent].
  destruct (startup_calls_end os) as (pre & -> & _).
  exists pre. by rewrite <- app_assoc.
Qed.

(** The hypothesis of C2 is met by [create_fails]. *)
Lemma window_failure_exits_at_once_witness :
  let r := run create_fails 4194304 0 [] 1 in
  outcome r = Exit EXIT_FAILURE
  ∧ EXIT_FAILURE ≠ 0
  ∧ (∃ pre, trace r =
       pre ++ EvWindowCreate "EasyGUIFlashTool" (mkPoint 10 10) (mkSize 1280 720)
           :: scope_exit)
  ∧ (EvGetMessage ∉ trace r)
  ∧ show_window_calls (trace r) = []
  ∧ (EvCoUninitialize ∉ trace r).
Proof.
  apply (window_failure_exits_at_once create_fails 4194304 0 [] 1). reflexivity.
Defined.

(** C3. With [create_fails], a start by double-click in which
    [window.Create] fails, [CoInitializeEx(nullptr, COINIT_APARTMENTTHREADED)]
    is called, [wWinMain] returns [EXIT_FAILURE], and [CoUninitialize] is
    never called: this return path leaves without the teardown that the
    other return path performs. *)
Theorem teardown_missing_on_window_failure :
  let r := run create_fails 4194304 0 [] 1 in
  EvCoInitializeEx nullptr COINIT_APARTMENTTHREADED ∈ trace r
  ∧ outcome r = Exit EXIT_FAILURE
  ∧ (EvCoUninitialize ∉ trace r)
  ∧ EvCoUninitialize ∈ trace (run double_click 4194304 0 [] 1).
Proof.
  cbv zeta. split_and!.
  - apply (bool_decide_unpack _). vm_compute. exact I.
  - reflexivity.
  - apply (bool_decide_unpack _). vm_compute. exact I.
  - apply (bool_decide_unpack _). vm_compute. exact I.
Qed.

(** C7. [wWinMain] returns [EXIT_SUCCESS], which is zero, exactly when the
    window was created and [GetMessage] came to answer zero, ending the
    message loop; it returns [EXIT_FAILURE], which is not zero, exactly when
    [window.Create] failed; it returns no other value. *)
Theorem exit_status_two_valued os instance prev command_line show_command :
  let r := run os instance prev command_line show_command in
  (outcome r = Exit EXIT_SUCCESS ↔
     window_created os = true ∧ ∃ msg, (0, msg) ∈ message_queue os)
  ∧ (outcome r = Exit EXIT_FAILURE ↔ window_created os = false)
  ∧ (∀ status, outcome r = Exit status →
       status = EXIT_SUCCESS ∨ status = EXIT_FAILURE)
  ∧ EXIT_SUCCESS = 0 ∧ EXIT_FAILURE ≠ 0.
Proof.
  cbv zeta. rewrite run_closed_form. cbn [outcome]. rewrite <- quits_iff.
  destruct (window_created os), (quits (message_queue os));
    split_and!; try done; try (split; [done|by intros [??]]);
    intros status [= <-]; auto.
Qed.

(** ** The hide step *)

(** C4, as stated, fails.  With [null_handle] the argument list is not
    empty and [window.Create] succeeds, yet [ShowWindow] is never called:
    the window is not hidden. *)
Lemma hide_skipped_on_null_handle :
  let r := run null_handle 4194304 0 [] 1 in
  argument_list null_handle ≠ []
  ∧ window_created null_handle = true
  ∧ outcome r = Exit EXIT_SUCCESS
  ∧ ¬ ∃ hwnd cmd, (hwnd, cmd) ∈ show_window_calls (trace r).
Proof.
  cbv zeta. split_and!; [done|done|reflexivity|].
  intros (hwnd & cmd & H). vm_compute in H. by apply elem_of_nil in H.
Qed.

(** C4, amended.  When the argument list is not empty, [window.Create]
    succeeds and [window.GetHandle()] is not null, the one [ShowWindow] call
    is [ShowWindow(hwnd, SW_HIDE)] on that handle; it is followed by
    [SetQuitOnClose(true)] and the message loop, in which [GetMessage] is
    called, and the destructor of the window does not run before the loop
    is over.  When the argument list is empty [ShowWindow] is never
    called. *)
Theorem cli_window_hidden_not_destroyed os instance prev command_line show_command :
  let r := run os instance prev command_line show_command in
  (argument_list os ≠ [] → window_created os = true → window_handle os ≠ nullptr →
     show_window_calls (trace r) = [(window_handle os, SW_HIDE)]
     ∧ ∃ pre loop tail,
         trace r = pre ++ [EvShowWindow (window_handle os) SW_HIDE;
                           EvWindowSetQuitOnClose true] ++ loop ++ tail
         ∧ (EvFlutterWindowDtor ∉ pre)
         ∧ EvGetMessage ∈ loop
         ∧ (∀ e, e ∈ loop → is_loop_call e = true)
         ∧ (tail = [] ∨ tail = EvCoUninitialize :: scope_exit))
  ∧ (argument_list os = [] → show_window_calls (trace r) = []).
Proof.
  cbv zeta. rewrite show_window_calls_run. split.
  - intros Hargs Hcreated Hhwnd%truthy_true.
    rewrite run_closed_form, Hcreated, Hhwnd, bool_decide_false by done.
    split; [done|]. cbn [trace]. unfold windowed_calls, hide_calls.
    rewrite Hhwnd, bool_decide_false by done.
    exists (startup_calls os ++ [EvWindowGetHandle]), (loop_calls (message_queue os)),
      (if quits (message_queue os) then EvCoUninitialize :: scope_exit else []).
    split_and!.
    + by rewrite <- !app_assoc.
    + intros [He|He]%elem_of_app.
      * apply startup_calls_absent in He. tauto.
      * revert He. absent.
    + destruct (loop_calls_start (message_queue os)) as [rest ->]. left.
    + apply loop_calls_are_loop_calls.
    + destruct (quits (message_queue os)); auto.
  - intros ->. rewrite bool_decide_true by done.
    by rewrite andb_false_r.
Qed.

(** The hypotheses of the amended C4 are met by [standalone_cli] (with
    arguments) and by [double_click] (without). *)
Lemma cli_window_hidden_not_destroyed_witness :
  let r := run standalone_cli 4194304 0 [] 1 in
  show_window_calls (trace r) = [(197124, SW_HIDE)]
  ∧ show_window_calls (trace (run double_click 4194304 0 [] 1)) = [].
Proof.
  split.
  - apply (cli_window_hidden_not_destroyed standalone_cli 4194304 0 [] 1);
      [discriminate|reflexivity|discriminate].
  - apply (cli_window_hidden_not_destroyed double_click 4194304 0 [] 1).
    reflexivity.
Defined.

(** C10.  Every [ShowWindow] call is made on a handle that is not null.
    When [window.GetHandle()] answers the null handle, [ShowWindow] is not
    called at all, [wWinMain] leaves as it would with any other handle, and
    (in a run with arguments whose window was created) [GetHandle] is
    followed at once by [SetQuitOnClose(true)] and the first [GetMessage]. *)
Theorem hide_guarded_by_handle os instance prev command_line show_command :
  let r := run os instance prev command_line show_command in
  (∀ hwnd cmd, (hwnd, cmd) ∈ show_window_calls (trace r) → hwnd ≠ nullptr)
  ∧ (window_handle os = nullptr →
       show_window_calls (trace r) = []
       ∧ (∀ hwnd, outcome (run (with_window_handle hwnd os) instance prev
                             command_line show_command) = outcome r)
       ∧ (window_created os = true → cli_flag r = true →
            ∃ pre post, trace r =
              pre ++ EvWindowGetHandle :: EvWindowSetQuitOnClose true
                  :: EvGetMessage :: post)).
Proof.
  cbv zeta. rewrite show_window_calls_run. split.
  - intros hwnd cmd.
    destruct (window_created os && negb (bool_decide (argument_list os = [])));
      cbn [andb]; [|by intros ?%elem_of_nil].
    destruct (truthy (window_handle os)) eqn:Hh; [|by intros ?%elem_of_nil].
    intros [= -> ->]%list_elem_of_singleton. by apply truthy_true.
  - intros Hnull%truthy_false. rewrite Hnull, andb_false_r. split_and!.
    + done.
    + intros hwnd. by rewrite !run_closed_form.
    + rewrite run_closed_form. cbn [trace cli_flag].
      intros -> Hcli%negb_true_iff. unfold windowed_calls, hide_calls.
      rewrite Hcli, Hnull.
      destruct (loop_calls_start (message_queue os)) as [rest ->].
      eexists (startup_calls os), _. simpl. reflexivity.
Qed.

(** The hypothesis of C10 is met by [null_handle]. *)
Lemma hide_guarded_by_handle_witness :
  show_window_calls (trace (run null_handle 4194304 0 [] 1)) = [].
Proof.
  apply (hide_guarded_by_handle null_handle 4194304 0 [] 1). reflexivity.
Defined.

(** ** The flag and the moved vector *)

(** C6.  The local [has_cli_args] holds [true] exactly when the vector
    returned by [GetCommandLineArguments()] is not empty.  When that vector
    is not empty and [AttachConsole] fails, [CreateAndAttachConsole] is
    called, once, and it is the only call that gives the process a
    console. *)
Theorem cli_flag_and_new_console os instance prev command_line show_command :
  let r := run os instance prev command_line show_command in
  (cli_flag r = true ↔ argument_list os ≠ [])
  ∧ (argument_list os ≠ [] → attach_console os = 0 →
       EvCreateAndAttachConsole ∈ trace r
       ∧ filter is_console_call (trace r) = [EvCreateAndAttachConsole]).
Proof.
  cbv zeta. rewrite run_closed_form. cbn [cli_flag trace]. split.
  - rewrite negb_true_iff, bool_decide_eq_false. done.
  - intros Hargs Hatt%truthy_false.
    assert (filter is_console_call
              (startup_calls os ++
               (if window_created os then windowed_calls os else scope_exit))
            = [EvCreateAndAttachConsole]) as Hfilter.
    { rewrite filter_app, filter_console_startup, Hatt, bool_decide_false by done.
      destruct (window_created os);
        [by rewrite filter_console_windowed|reflexivity]. }
    split; [|done].
    eapply list_elem_of_filter. rewrite Hfilter. left.
Qed.

(** The hypotheses of C6 are met by [standalone_cli]. *)
Lemma cli_flag_and_new_console_witness :
  let r := run standalone_cli 4194304 0 [] 1 in
  EvCreateAndAttachConsole ∈ trace r
  ∧ filter is_console_call (trace r) = [EvCreateAndAttachConsole].
Proof.
  apply (cli_flag_and_new_console standalone_cli 4194304 0 [] 1);
    [discriminate|reflexivity].
Defined.

(** C9.  The local [command_line_arguments] is initialised, read once (by
    [empty()]) and then moved; nothing is done to it after the move.  What
    the moved-from vector holds changes nothing in the run.  The flag
    [has_cli_args] is the one computed from the vector before the move, and
    the hide step (its [GetHandle] call) is taken exactly when the window
    was created and that flag is set. *)
Theorem arguments_not_read_after_move os instance prev command_line show_command :
  let r := run os instance prev command_line show_command in
  vector_accesses r = [AInit; ARead; AMove]
  ∧ (∀ junk, run (with_moved_from junk os) instance prev command_line show_command = r)
  ∧ cli_flag r = negb (bool_decide (argument_list os = []))
  ∧ (EvWindowGetHandle ∈ trace r ↔ window_created os = true ∧ cli_flag r = true).
Proof.
  cbv zeta. split_and!.
  - by rewrite run_closed_form.
  - intros junk. by rewrite !run_closed_form.
  - by rewrite run_closed_form.
  - rewrite run_closed_form. cbn [trace cli_flag].
    rewrite elem_of_app. split.
    + intros [He|He].
      { apply startup_calls_absent in He. tauto. }
      destruct (window_created os); [|revert He; unfold scope_exit; absent].
      split; [done|]. revert He. unfold windowed_calls, hide_calls.
      destruct (bool_decide (argument_list os = [])); [|done].
      simpl. rewrite elem_of_cons, elem_of_app. intros [?|[He|He]]; [done| |].
      * by apply loop_calls_are_loop_calls in He.
      * destruct (quits (message_queue os)); revert He; unfold scope_exit; absent.
    + unfold windowed_calls, hide_calls. intros [-> ->%negb_true_iff]. right.
      rewrite elem_of_app. left. left.
Qed.

(** ** The message pump *)

Lemma filter_loop_calls_keep (f : Event → bool) pending :
  (∀ e, is_loop_call e = true → f e = true) →
  filter f (loop_calls pending) = loop_calls pending.
Proof.
  intros Hf. induction pending as [|[r msg] later IH]; simpl.
  - rewrite filter_cons, (Hf EvGetMessage) by done. reflexivity.
  - rewrite filter_cons, (Hf EvGetMessage) by done. simpl. f_equal.
    destruct (truthy r); [|reflexivity].
    rewrite !filter_cons, (Hf (EvTranslateMessage msg)),
      (Hf (EvDispatchMessage msg)) by done.
    simpl. by rewrite IH.
Qed.

Lemma filter_loop_calls_drop (f : Event → bool) pending :
  (∀ e, is_loop_call e = true → f e = false) →
  filter f (loop_calls pending) = [].
Proof.
  intros Hf. apply elem_of_nil_inv.
  intros e [Hc He%loop_calls_are_loop_calls]%list_elem_of_filter.
  rewrite (Hf e He) in Hc. done.
Qed.

Lemma loop_calls_rounds pending :
  loop_calls pending = (before_quit pending ≫= pump_round) ++ [EvGetMessage].
Proof.
  induction pending as [|[r msg] later IH]; simpl; [done|].
  destruct (truthy r); [|done].
  rewrite bind_cons, IH. reflexivity.
Qed.

(** X1. The message loop works in rounds.  When the window was created, the
    calls made by the loop are, for each message retrieved before
    [GetMessage] first answers zero and in the order of retrieval,
    [GetMessage], [TranslateMessage] and [DispatchMessage] of that message,
    and then one last [GetMessage].  Any answer other than zero, a negative
    one included, counts as a retrieved message.  When [window.Create]
    failed the loop makes no call. *)
Theorem message_pump_rounds os instance prev command_line show_command :
  filter is_loop_call (trace (run os instance prev command_line show_command)) =
  if window_created os
  then (before_quit (message_queue os) ≫= pump_round) ++ [EvGetMessage]
  else [].
Proof.
  rewrite run_closed_form. cbn [trace].
  rewrite <- loop_calls_rounds.
  unfold startup_calls, windowed_calls, console_calls, hide_calls.
  destruct (window_created os);
    rewrite !filter_app, ?filter_loop_calls_keep by done;
    destruct (truthy (attach_console os)), (bool_decide (argument_list os = [])),
      (truthy (debugger_present os)), (truthy (window_handle os)),
      (quits (message_queue os)); simpl; by rewrite ?app_nil_r.
Qed.

Lemma quits_after_zero before msg after :
  quits (before ++ (0, msg) :: after) = quits (before ++ [(0, msg)]).
Proof.
  induction before as [|[r m] later IH]; simpl; [done|].
  by destruct (truthy r).
Qed.

Lemma loop_calls_after_zero before msg after :
  loop_calls (before ++ (0, msg) :: after) = loop_calls (before ++ [(0, msg)]).
Proof.
  induction before as [|[r m] later IH]; simpl; [done|].
  destruct (truthy r); [|done]. by rewrite IH.
Qed.

(** X2. What [GetMessage] would answer after its first zero answer has no
    effect: a run in which a zero answer is followed by further answers is
    the same run, call for call and with the same exit, as the one in which
    nothing follows that zero answer. *)
Theorem messages_after_quit_ignored os instance prev command_line show_command
    before msg after :
  message_queue os = before ++ (0, msg) :: after →
  run os instance prev command_line show_command =
  run (with_message_queue (before ++ [(0, msg)]) os) instance prev command_line
    show_command.
Proof.
  intros Hqueue. rewrite !run_closed_form.
  unfold startup_calls, windowed_calls, console_calls, hide_calls. cbn.
  by rewrite Hqueue, quits_after_zero, loop_calls_after_zero.
Qed.

(** With [paint], [quit], [paint] answered in turn, the second [paint] is
    never retrieved. *)
Lemma messages_after_quit_ignored_witness :
  run (with_message_queue [(1, paint); (0, quit); (1, paint)] double_click)
    4194304 0 [] 1 =
  run (with_message_queue [(1, paint); (0, quit)]
         (with_message_queue [(1, paint); (0, quit); (1, paint)] double_click))
    4194304 0 [] 1.
Proof.
  apply (messages_after_quit_ignored
           (with_message_queue [(1, paint); (0, quit); (1, paint)] double_click)
           4194304 0 [] 1 [(1, paint)] quit [(1, paint)]).
  reflexivity.
Defined.

(** ** The order of the start-up *)

(** X3. [IsDebuggerPresent] is consulted exactly when [AttachConsole] failed
    and the argument list is empty: with a parent console, or with
    arguments, the debugger is never queried. *)
Theorem debugger_query_short_circuit os instance prev command_line show_command :
  EvIsDebuggerPresent ∈ trace (run os instance prev command_line show_command)
  ↔ attach_console os = 0 ∧ argument_list os = [].
Proof.
  rewrite run_closed_form. cbn [trace].
  rewrite <- truthy_false, <- (bool_decide_eq_true (argument_list os = [])).
  assert (EvIsDebuggerPresent ∉
            (if window_created os then windowed_calls os else scope_exit)) as Hrest.
  { destruct (window_created os); [|unfold scope_exit; absent].
    unfold windowed_calls, hide_calls. rewrite !elem_of_app.
    intros [He|[He|[He|He]]].
    - revert He. destruct (bool_decide (argument_list os = [])),
        (truthy (window_handle os)); absent.
    - revert He. absent.
    - by apply loop_calls_are_loop_calls in He.
    - revert He. destruct (quits (message_queue os)); unfold scope_exit; absent. }
  rewrite elem_of_app. unfold startup_calls, console_calls, redirect_calls.
  destruct (truthy (attach_console os)), (bool_decide (argument_list os = [])),
    (truthy (debugger_present os)); simpl;
    (split;
       [intros [He|He]; [|done];
        first [by split | exfalso; revert He; absent]
       |intros [??]; try done]).
  all: left; do 2 right; left.
Qed.

(** X4. COM is initialised exactly once in every run, in apartment-threaded
    mode, and [CoUninitialize] is called, once and after it, exactly in the
    runs where [wWinMain] returns [EXIT_SUCCESS]; in all other runs it is
    never called. *)
Theorem com_initialised_once_torn_down_on_success os instance prev command_line
    show_command :
  let r := run os instance prev command_line show_command in
  filter is_com_call (trace r) =
  EvCoInitializeEx nullptr COINIT_APARTMENTTHREADED ::
  (if bool_decide (outcome r = Exit EXIT_SUCCESS) then [EvCoUninitialize] else []).
Proof.
  cbv zeta. rewrite run_closed_form. cbn [trace outcome].
  unfold startup_calls, windowed_calls, console_calls, hide_calls.
  destruct (window_created os);
    rewrite !filter_app, ?filter_loop_calls_drop by (by intros []);
    destruct (truthy (attach_console os)), (bool_decide (argument_list os = [])),
      (truthy (debugger_present os)), (truthy (window_handle os)),
      (quits (message_queue os)); reflexivity.
Qed.

Lemma rest_not_decision os e :
  e ∈ (if window_created os then windowed_calls os else scope_exit) →
  is_decision_call e = false.
Proof.
  destruct (window_created os).
  - unfold windowed_calls, hide_calls. rewrite !elem_of_app.
    intros [He|[He|[He|He]]].
    + revert He. destruct (bool_decide (argument_list os = [])),
        (truthy (window_handle os)); intros He;
        repeat (apply elem_of_cons in He as [->|He]; [reflexivity|]);
        by apply elem_of_nil in He.
    + by apply list_elem_of_singleton in He as ->.
    + apply loop_calls_are_loop_calls in He. by destruct e.
    + revert He. destruct (quits (message_queue os)); intros He;
        repeat (apply elem_of_cons in He as [->|He]; [reflexivity|]);
        by apply elem_of_nil in He.
  - intros He.
    repeat (apply elem_of_cons in He as [->|He]; [reflexivity|]).
    by apply elem_of_nil in He.
Qed.

(** X5. Every run starts in the same order.  First come the calls of the
    console decision and nothing else; then, one after the other,
    [CoInitializeEx], the construction of the project on ["data"],
    [set_dart_entrypoint_arguments], the construction of the window and
    [window.Create]; and no call of the console decision is made after
    that.  So the console is settled, COM is initialised and the arguments
    are in the project before the window is built from it. *)
Theorem window_created_after_setup os instance prev command_line show_command :
  ∃ decision rest,
    trace (run os instance prev command_line show_command) =
      decision
      ++ [EvCoInitializeEx nullptr COINIT_APARTMENTTHREADED; EvDartProject "data";
          EvSetDartEntrypointArguments (argument_list os); EvFlutterWindow;
          EvWindowCreate "EasyGUIFlashTool" (mkPoint 10 10) (mkSize 1280 720)]
      ++ rest
    ∧ (∀ e, e ∈ decision → is_decision_call e = true)
    ∧ (∀ e, e ∈ rest → is_decision_call e = false).
Proof.
  rewrite run_closed_form. cbn [trace].
  exists ([EvGetCommandLineArguments; EvAttachConsole ATTACH_PARENT_PROCESS]
          ++ console_calls os),
    (if window_created os then windowed_calls os else scope_exit).
  split_and!.
  - unfold startup_calls. by rewrite <- !app_assoc.
  - unfold console_calls, redirect_calls.
    destruct (truthy (attach_console os)), (bool_decide (argument_list os = [])),
      (truthy (debugger_present os)); simpl; intros e He;
      repeat (apply elem_of_cons in He as [->|He]; [reflexivity|]);
      by apply elem_of_nil in He.
  - apply rest_not_decision.
Qed.

(** X6. When the window was created, [SetQuitOnClose(true)] is called
    directly before the first [GetMessage], and no call of the message loop
    is made before it: no message is retrieved from a window that would
    not end the loop when closed. *)
Theorem quit_on_close_set_before_pumping os instance prev command_line show_command :
  window_created os = true →
  ∃ pre post,
    trace (run os instance prev command_line show_command) =
      pre ++ EvWindowSetQuitOnClose true :: EvGetMessage :: post
    ∧ (∀ e, e ∈ pre → is_loop_call e = false)
    ∧ (∀ b, EvWindowSetQuitOnClose b ∉ pre).
Proof.
  intros Hcreated. rewrite run_closed_form, Hcreated. cbn [trace].
  unfold windowed_calls.
  destruct (loop_calls_start (message_queue os)) as [rest ->].
  exists (startup_calls os ++ hide_calls os), (rest ++
    (if quits (message_queue os) then EvCoUninitialize :: scope_exit else [])).
  assert (∀ e, e ∈ startup_calls os ++ hide_calls os →
               is_loop_call e = false ∧ ∀ b, e ≠ EvWindowSetQuitOnClose b) as Hpre.
  { unfold startup_calls, console_calls, redirect_calls, hide_calls.
    destruct (truthy (attach_console os)), (bool_decide (argument_list os = [])),
      (truthy (debugger_present os)), (truthy (window_handle os)); simpl;
      intros e He;
      repeat (apply elem_of_cons in He as [->|He]; [by split|]);
      by apply elem_of_nil in He. }
  split_and!.
  - by rewrite <- !app_assoc.
  - intros e He. by apply Hpre.
  - intros b He. apply Hpre in He as [_ Hne]. by apply (Hne b).
Qed.

(** The hypothesis of X6 is met by [from_terminal]. *)
Lemma quit_on_close_set_before_pumping_witness :
  ∃ pre post,
    trace (run from_terminal 4194304 0 [] 1) =
      pre ++ EvWindowSetQuitOnClose true :: EvGetMessage :: post
    ∧ (∀ e, e ∈ pre → is_loop_call e = false)
    ∧ (∀ b, EvWindowSetQuitOnClose b ∉ pre).
Proof.
  apply (quit_on_close_set_before_pumping from_terminal 4194304 0 [] 1).
  reflexivity.
Defined.

(** ** Leaving and the part played by the arguments *)

(** X7. A run that returns [EXIT_SUCCESS] ends with the [GetMessage] that
    answered zero, then [CoUninitialize], then the destructor of the window
    and the destructor of the project; no destructor runs before that.  So
    COM is torn down straight after the loop and while the window object
    still exists. *)
Theorem success_ends_with_teardown os instance prev command_line show_command :
  let r := run os instance prev command_line show_command in
  outcome r = Exit EXIT_SUCCESS →
  ∃ body,
    trace r = body ++ [EvGetMessage; EvCoUninitialize;
                       EvFlutterWindowDtor; EvDartProjectDtor]
    ∧ (∀ e, e ∈ body → is_destructor e = false).
Proof.
  cbv zeta. rewrite run_closed_form. cbn [outcome trace].
  destruct (window_created os); [|done].
  destruct (quits (message_queue os)) eqn:Hquits; [|done]. intros _.
  unfold windowed_calls. rewrite Hquits, loop_calls_rounds.
  exists (startup_calls os ++ hide_calls os ++ [EvWindowSetQuitOnClose true]
          ++ (before_quit (message_queue os) ≫= pump_round)).
  split.
  - by rewrite <- !app_assoc.
  - intros e. rewrite !elem_of_app. intros [He|[He|[He|He]]].
    + revert He. unfold startup_calls, console_calls, redirect_calls.
      destruct (truthy (attach_console os)), (bool_decide (argument_list os = [])),
        (truthy (debugger_present os)); simpl; intros He;
        repeat (apply elem_of_cons in He as [->|He]; [reflexivity|]);
        by apply elem_of_nil in He.
    + revert He. unfold hide_calls.
      destruct (bool_decide (argument_list os = [])), (truthy (window_handle os));
        intros He;
        repeat (apply elem_of_cons in He as [->|He]; [reflexivity|]);
        by apply elem_of_nil in He.
    + by apply list_elem_of_singleton in He as ->.
    + assert (e ∈ loop_calls (message_queue os)) as Hloop.
      { rewrite loop_calls_rounds, elem_of_app. by left. }
      apply loop_calls_are_loop_calls in Hloop. by destruct e.
Qed.

(** The hypothesis of X7 is met by [double_click]. *)
Lemma success_ends_with_teardown_witness :
  ∃ body,
    trace (run double_click 4194304 0 [] 1) =
      body ++ [EvGetMessage; EvCoUninitialize;
               EvFlutterWindowDtor; EvDartProjectDtor]
    ∧ (∀ e, e ∈ body → is_destructor e = false).
Proof.
  apply (success_ends_with_teardown double_click 4194304 0 [] 1). reflexivity.
Defined.

Lemma common_calls_run os instance prev command_line show_command :
  filter is_common_call (trace (run os instance prev command_line show_command)) =
  [EvGetCommandLineArguments; EvAttachConsole ATTACH_PARENT_PROCESS;
   EvCoInitializeEx nullptr COINIT_APARTMENTTHREADED; EvDartProject "data";
   EvFlutterWindow;
   EvWindowCreate "EasyGUIFlashTool" (mkPoint 10 10) (mkSize 1280 720)]
  ++ (if window_created os
      then EvWindowSetQuitOnClose true :: loop_calls (message_queue os)
           ++ (if quits (message_queue os)
               then EvCoUninitialize :: scope_exit else [])
      else scope_exit).
Proof.
  rewrite run_closed_form. cbn [trace].
  unfold startup_calls, windowed_calls, console_calls, hide_calls.
  destruct (window_created os);
    rewrite !filter_app, ?filter_loop_calls_keep by (by intros []);
    destruct (truthy (attach_console os)), (bool_decide (argument_list os = [])),
      (truthy (debugger_present os)), (truthy (window_handle os)),
      (quits (message_queue os)); reflexivity.
Qed.

(** X8. The arguments steer the console decision and the hide step and
    nothing else.  Two runs on platforms that differ only in the argument
    list leave [wWinMain] the same way, and apart from the calls of the
    console decision, the hide step and the argument hand-over itself they
    make the same calls in the same order: COM, the project, the window and
    its geometry, and the message loop do not depend on the arguments. *)
Theorem arguments_steer_console_and_hide_only os instance prev command_line
    show_command arguments :
  let r := run os instance prev command_line show_command in
  let r' := run (with_argument_list arguments os) instance prev command_line
              show_command in
  outcome r' = outcome r
  ∧ filter is_common_call (trace r') = filter is_common_call (trace r).
Proof.
  cbv zeta. split.
  - by rewrite !run_closed_form.
  - by rewrite !common_calls_run.
Qed.

(** X9. [wWinMain] never shows the window itself.  Whatever [ShowWindow]
    call it makes has the command [SW_HIDE] and the handle that
    [window.GetHandle()] answered, and is made in a run with arguments whose
    window was created; the entry point's own [show_command] plays no
    part. *)
Theorem show_window_only_hides os instance prev command_line show_command hwnd cmd :
  let r := run os instance prev command_line show_command in
  (hwnd, cmd) ∈ show_window_calls (trace r) →
  cmd = SW_HIDE ∧ hwnd = window_handle os
  ∧ cli_flag r = true ∧ window_created os = true
  ∧ show_window_calls (trace r) = [(hwnd, cmd)].
Proof.
  cbv zeta. rewrite show_window_calls_run, run_closed_form. cbn [cli_flag].
  destruct (window_created os), (bool_decide (argument_list os = [])),
    (truthy (window_handle os)); cbn [andb negb];
    try (by intros ?%elem_of_nil).
  by intros [= -> ->]%list_elem_of_singleton.
Qed.

(** The hypothesis of X9 is met by [standalone_cli], whatever
    [show_command] asks for. *)
Lemma show_window_only_hides_witness :
  (197124, 0) ∈ show_window_calls (trace (run standalone_cli 4194304 0 [] 3))
  ∧ 0 = SW_HIDE.
Proof.
  assert ((197124, 0) ∈
          show_window_calls (trace (run standalone_cli 4194304 0 [] 3))) as Hin.
  { apply (bool_decide_unpack _). vm_compute. exact I. }
  split; [exact Hin|].
  apply (show_window_only_hides standalone_cli 4194304 0 [] 3 197124 0 Hin).
Defined.
